(** * IngredientIQ: acquisition and reconciliation core

    A shallow embedding of the client-side logic of the IngredientIQ
    frontend: the ingredient/analysis matching and the analysis summary of
    the result view, the camera life cycle of the scan view, and the error
    handling of [ApiService].

    Strings are modelled as [string] over 8-bit characters: the JavaScript
    string operations below are the restrictions of [toLowerCase], [trim],
    [includes] and [split] to that alphabet. *)

From Stdlib Require Import String Ascii List Bool Arith ZArith Lia.
Import ListNotations.

Set Warnings "-register-all".

Open Scope string_scope.
Open Scope list_scope.
Open Scope bool_scope.
Open Scope nat_scope.

(* ===================================================================== *)
(** ** JavaScript string primitives used by the views *)
(* ===================================================================== *)

Module JsString.

(** ['A'..'Z'] *)
Definition isUpper (c : ascii) : bool :=
  let n := nat_of_ascii c in (65 <=? n) && (n <=? 90).

Definition lowerChar (c : ascii) : ascii :=
  if isUpper c then ascii_of_nat (nat_of_ascii c + 32) else c.

(** [String.prototype.toLowerCase] *)
Fixpoint toLowerCase (s : string) : string :=
  match s with
  | EmptyString => EmptyString
  | String c r => String (lowerChar c) (toLowerCase r)
  end.

(** White space and line terminators: TAB, LF, VT, FF, CR and SPACE. It is
    what [trim] strips and what [\s] matches. *)
Definition isWhiteSpace (c : ascii) : bool :=
  let n := nat_of_ascii c in ((9 <=? n) && (n <=? 13)) || (n =? 32).

(** A JavaScript string is falsy exactly when it is empty. *)
Definition isEmpty (s : string) : bool :=
  match s with EmptyString => true | String _ _ => false end.

Fixpoint trimStart (s : string) : string :=
  match s with
  | EmptyString => EmptyString
  | String c r => if isWhiteSpace c then trimStart r else s
  end.

Fixpoint trimEnd (s : string) : string :=
  match s with
  | EmptyString => EmptyString
  | String c r =>
      let r' := trimEnd r in
      if isWhiteSpace c && isEmpty r' then EmptyString else String c r'
  end.

(** [String.prototype.trim] *)
Definition trim (s : string) : string := trimEnd (trimStart s).

(** [hay.includes(needle)]: [needle] occurs in [hay] at some position. *)
Fixpoint includes (hay needle : string) : bool :=
  String.prefix needle hay ||
  match hay with
  | EmptyString => false
  | String _ r => includes r needle
  end.

(** [s.split(sep)] for a one-character separator class: every separator
    character ends a piece, empty pieces are kept. *)
Fixpoint splitOn (sep : ascii -> bool) (s : string) : list string :=
  match s with
  | EmptyString => [EmptyString]
  | String c r =>
      if sep c then EmptyString :: splitOn sep r
      else match splitOn sep r with
           | [] => [String c EmptyString]
           | w :: ws => String c w :: ws
           end
  end.

Definition isSpace (c : ascii) : bool := (nat_of_ascii c =? 32).

(** [s.split(' ')] *)
Definition splitSpace (s : string) : list string := splitOn isSpace s.

(** The class [[\s,;.]] *)
Definition isSeparator (c : ascii) : bool :=
  let n := nat_of_ascii c in
  isWhiteSpace c || (n =? 44) || (n =? 59) || (n =? 46).

(** [s.split(/[\s,;.]+/).filter(Boolean)]: a run of separators splits once,
    and the empty pieces that a leading or trailing run leaves are removed
    by the filter, so the result is the list of the maximal separator-free
    pieces, which is also what splitting at every separator and dropping
    the empty pieces gives. *)
Definition splitWords (s : string) : list string :=
  filter (fun w => negb (isEmpty w)) (splitOn isSeparator s).

End JsString.

(* ===================================================================== *)
(** ** Result view: ingredient rows and analysis summary *)
(* ===================================================================== *)

Module ResultPage.
Import JsString.

Inductive SafetyLevel := safe | caution | avoid | unknown.

Definition SafetyLevel_eqb (a b : SafetyLevel) : bool :=
  match a, b with
  | safe, safe | caution, caution | avoid, avoid | unknown, unknown => true
  | _, _ => false
  end.

(** [IngredientAnalysisResult] of services/api.ts. The [nutrition] table is
    read by none of the functions below and is left out. *)
Record IngredientAnalysisResult := {
  name : string;
  id : Z;
  safety_level : SafetyLevel;
  health_score : option Z;
  concerns : list string;
  benefits : list string
}.

(** [interface Ingredient { name: string; allergen?: boolean }] *)
Record Ingredient := {
  ingredient_name : string;
  allergen : option bool
}.

(** [type IngredientType = string | Ingredient] *)
Inductive IngredientType :=
| IngString (s : string)
| IngObject (o : Ingredient).

(** [typeof ingredient === 'string' ? ingredient : ingredient.name] *)
Definition ingredientText (ingredient : IngredientType) : string :=
  match ingredient with
  | IngString s => s
  | IngObject o => ingredient_name o
  end.

(** [typeof ingredient === 'object' && ingredient.allergen] *)
Definition isAllergen (ingredient : IngredientType) : bool :=
  match ingredient with
  | IngString _ => false
  | IngObject o => match allergen o with Some b => b | None => false end
  end.

(** *** OCR-ingredient path *)

(** The two normalised names of the OCR matcher. *)
Definition ocrNormalize (s : string) : string := trim (toLowerCase s).

(** [analysisName === ingredientLower] *)
Definition ocrExact (analysisName ingredientLower : string) : bool :=
  String.eqb analysisName ingredientLower.

(** [ingredientLower.includes(analysisName) ||
     analysisName.includes(ingredientLower)] *)
Definition ocrPartial (analysisName ingredientLower : string) : bool :=
  includes ingredientLower analysisName || includes analysisName ingredientLower.

(** [analysisWords.some(aw => ingredientWords.some(iw =>
       iw.includes(aw) || aw.includes(iw)))] *)
Definition ocrWords (analysisName ingredientLower : string) : bool :=
  let analysisWords := splitWords analysisName in
  let ingredientWords := splitWords ingredientLower in
  existsb (fun aw =>
    existsb (fun iw => includes iw aw || includes aw iw) ingredientWords)
    analysisWords.

(** The predicate handed to [analysisResults.find] in the OCR list. *)
Definition ocrMatches (ingredientText : string) (a : IngredientAnalysisResult)
  : bool :=
  if isEmpty (name a) then false
  else
    let analysisName := ocrNormalize (name a) in
    let ingredientLower := ocrNormalize ingredientText in
    if isEmpty analysisName || isEmpty ingredientLower then false
    else if ocrExact analysisName ingredientLower then true
    else if ocrPartial analysisName ingredientLower then true
    else ocrWords analysisName ingredientLower.

(** [let analysis; if (analysisResults) analysis = analysisResults.find(..)] *)
Definition ocrAnalysis (analysisResults : option (list IngredientAnalysisResult))
           (ingredientText : string) : option IngredientAnalysisResult :=
  match analysisResults with
  | None => None
  | Some rs => find (ocrMatches ingredientText) rs
  end.

(** *** Product-ingredient path *)

Definition productExact (aName ingredientText : string) : bool :=
  String.eqb (toLowerCase aName) (toLowerCase ingredientText).

(** The predicate handed to [analysisResults?.find] in the product list. *)
Definition productMatches (ingredientText : string)
           (a : IngredientAnalysisResult) : bool :=
  if isEmpty (name a) then false
  else
    productExact (name a) ingredientText
    || includes (toLowerCase ingredientText) (toLowerCase (name a))
    || includes (toLowerCase (name a)) (toLowerCase ingredientText)
    || existsb (fun word => includes (toLowerCase ingredientText) word)
               (splitSpace (toLowerCase (name a))).

Definition productAnalysis (analysisResults : option (list IngredientAnalysisResult))
           (ingredientText : string) : option IngredientAnalysisResult :=
  match analysisResults with
  | None => None
  | Some rs => find (productMatches ingredientText) rs
  end.

(** *** The rendered rows *)

Definition safetyLabel (l : SafetyLevel) : string :=
  match l with
  | safe => "safe" | caution => "caution" | avoid => "avoid"
  | unknown => "unknown"
  end.

(** One [ListItem]: its React key, the primary text, the analysis record it
    links to and the secondary text. Icons and colours are not modelled. *)
Record Row := {
  key : nat;
  primary : string;
  analysis : option IngredientAnalysisResult;
  secondary : string
}.

(** [analysis?.safety_level ? `Safety: ${..}` : 'Not analyzed'] *)
Definition secondaryText (analysis : option IngredientAnalysisResult) : string :=
  match analysis with
  | Some a => "Safety: " ++ safetyLabel (safety_level a)
  | None => "Not analyzed"
  end.

(** [array.map((x, index) => f x index)], indices counted from [i]. *)
Fixpoint mapiFrom {A B : Type} (f : A -> nat -> B) (i : nat) (l : list A)
  : list B :=
  match l with
  | [] => []
  | x :: r => f x i :: mapiFrom f (S i) r
  end.

Definition mapi {A B : Type} (f : A -> nat -> B) (l : list A) : list B :=
  mapiFrom f 0 l.

Definition ocrRow (analysisResults : option (list IngredientAnalysisResult))
           (ingredient : IngredientType) (index : nat) : Row :=
  let text := ingredientText ingredient in
  let found := ocrAnalysis analysisResults text in
  {| key := index; primary := text; analysis := found;
     secondary := secondaryText found |}.

(** [ocrResult.ingredients.map((ingredient, index) => ...)] *)
Definition ocrRows (ingredients : list IngredientType)
           (analysisResults : option (list IngredientAnalysisResult))
  : list Row :=
  mapi (ocrRow analysisResults) ingredients.

Definition productRow (analysisResults : option (list IngredientAnalysisResult))
           (ingredient : IngredientType) (index : nat) : Row :=
  let text := ingredientText ingredient in
  let found := productAnalysis analysisResults text in
  {| key := index; primary := text; analysis := found;
     secondary := secondaryText found |}.

(** [product.ingredients.map((ingredient, index) => ...)] *)
Definition productRows (ingredients : list IngredientType)
           (analysisResults : option (list IngredientAnalysisResult))
  : list Row :=
  mapi (productRow analysisResults) ingredients.

(** *** Ingredient Analysis Summary *)

(** [analysisResults.filter(i => i.safety_level === level).length] *)
Definition levelCount (level : SafetyLevel)
           (analysisResults : list IngredientAnalysisResult) : nat :=
  List.length
    (filter (fun i => SafetyLevel_eqb (safety_level i) level) analysisResults).

(** [item.concerns.length > 0 || item.benefits.length > 0] *)
Definition hasDetails (item : IngredientAnalysisResult) : bool :=
  (0 <? List.length (concerns item)) || (0 <? List.length (benefits item)).

(** [analysisResults.filter(item => ...)] of the Detailed Analysis list *)
Definition detailedAnalysis (analysisResults : list IngredientAnalysisResult)
  : list IngredientAnalysisResult :=
  filter hasDetails analysisResults.

Record Summary := {
  safeBadge : nat;
  cautionBadge : nat;
  avoidBadge : nat;
  detailed : list IngredientAnalysisResult
}.

(** The summary card, rendered only when [analysisResults] is not null. *)
Definition analysisSummary
           (analysisResults : option (list IngredientAnalysisResult))
  : option Summary :=
  match analysisResults with
  | None => None
  | Some rs =>
      Some {| safeBadge := levelCount safe rs;
              cautionBadge := levelCount caution rs;
              avoidBadge := levelCount avoid rs;
              detailed := detailedAnalysis rs |}
  end.

End ResultPage.

(* ===================================================================== *)
(** ** Scan view: tabs, barcode scanner and OCR camera *)
(* ===================================================================== *)

Module ScanPage.
Import JsString.

(** [enum ScanType] *)
Inductive ScanType := BARCODE | CAMERA | IMAGE.

Definition TrackId := nat.

(** A [MediaStream] is known by the tracks [getTracks()] returns. *)
Record MediaStream := { getTracks : list TrackId }.

Record File := { file_name : string; file_type : string }.

(** The part of a [QuaggaResult] the handler reads; the callback argument
    is typed [any], so both the result and its [codeResult] may be absent. *)
Record CodeResult := { code : string }.
Record QuaggaResult := { codeResult : option CodeResult }.

(** What a function value created during one render has captured of that
    render's state. [handleBarcodeDetected] reads, through
    [handleBarcodeSearch], only [barcode]. *)
Record Closure := { closure_barcode : string }.

(** Calls that leave the component, in the order they are made. *)
Inductive Call :=
| QuaggaInit
| QuaggaStart
| QuaggaOnDetected (handler : Closure)
| QuaggaStop
| GetUserMedia
| TrackStop (t : TrackId)
| ApiLookupBarcode (barcode : string)
| Navigate (url : string)
| CreateObjectURL (f : File)
| RevokeObjectURL (url : string).

(** The [useState] cells. *)
Record Hooks := {
  activeTab : ScanType;
  barcode : string;
  loading : bool;
  error : option string;
  cameraActive : bool;
  cameraError : option string;
  selectedFile : option File;
  previewUrl : option string
}.

(** [<video>]: only [srcObject] is used. *)
Record VideoElement := { srcObject : option MediaStream }.

(** The [useRef] cells: whether [scannerRef.current] is mounted, and
    [videoRef.current]. *)
Record Refs := {
  scannerRef : bool;
  videoRef : option VideoElement
}.

(** The devices: whether the Quagga decoder holds the camera, the media
    tracks that are live, and the log of calls. *)
Record Devices := {
  quaggaRunning : bool;
  liveTracks : list TrackId;
  calls : list Call
}.

(** The component: its cells, its refs, and the render whose clean-up the
    [useEffect] of deps [[previewUrl]] has registered. A render is known by
    the values its consts have, that is by a [Hooks]: the function values
    created in it read those, not the cells. *)
Record State := {
  hooks : Hooks;
  refs : Refs;
  effect : Hooks;
  devices : Devices
}.

(** *** A small error monad over [State] *)

Inductive Res (A : Type) :=
| Ok (a : A) (s : State)
| Thrown (e : string) (s : State).
Arguments Ok {A} a s.
Arguments Thrown {A} e s.

Definition M (A : Type) : Type := State -> Res A.

Definition ret {A} (a : A) : M A := fun s => Ok a s.

Definition bind {A B} (m : M A) (k : A -> M B) : M B :=
  fun s => match m s with
           | Ok a s' => k a s'
           | Thrown e s' => Thrown e s'
           end.

Definition throw {A} (e : string) : M A := fun s => Thrown e s.

(** [try { body } catch (err) { handler }] *)
Definition tryCatch {A} (body : M A) (handler : string -> M A) : M A :=
  fun s => match body s with
           | Ok a s' => Ok a s'
           | Thrown e s' => handler e s'
           end.

Definition gets {A} (f : State -> A) : M A := fun s => Ok (f s) s.
Definition modify (f : State -> State) : M unit := fun s => Ok tt (f s).

Declare Scope scan_scope.
Delimit Scope scan_scope with scan.
Notation "x <- m ;; k" := (bind m (fun x => k))
  (at level 61, m at next level, right associativity) : scan_scope.
Notation "m ;; k" := (bind m (fun _ => k))
  (at level 61, right associativity) : scan_scope.
Open Scope scan_scope.

(** The state a handler leaves, whether it returned or threw. *)
Definition stateOf {A} (r : Res A) : State :=
  match r with Ok _ s => s | Thrown _ s => s end.

(** *** State setters *)

Definition withHooks (f : Hooks -> Hooks) : M unit :=
  modify (fun s => {| hooks := f (hooks s); refs := refs s;
                      effect := effect s; devices := devices s |}).

Definition withRefs (f : Refs -> Refs) : M unit :=
  modify (fun s => {| hooks := hooks s; refs := f (refs s);
                      effect := effect s; devices := devices s |}).

Definition withDevices (f : Devices -> Devices) : M unit :=
  modify (fun s => {| hooks := hooks s; refs := refs s;
                      effect := effect s; devices := f (devices s) |}).

(** The effect of deps [[previewUrl]] registers the clean-up of [render]. *)
Definition setEffect (render : Hooks) : M unit :=
  modify (fun s => {| hooks := hooks s; refs := refs s;
                      effect := render; devices := devices s |}).

Definition setActiveTab (v : ScanType) : M unit :=
  withHooks (fun h =>
    {| activeTab := v; barcode := barcode h; loading := loading h;
       error := error h; cameraActive := cameraActive h;
       cameraError := cameraError h; selectedFile := selectedFile h;
       previewUrl := previewUrl h |}).

Definition setBarcode (v : string) : M unit :=
  withHooks (fun h =>
    {| activeTab := activeTab h; barcode := v; loading := loading h;
       error := error h; cameraActive := cameraActive h;
       cameraError := cameraError h; selectedFile := selectedFile h;
       previewUrl := previewUrl h |}).

Definition setLoading (v : bool) : M unit :=
  withHooks (fun h =>
    {| activeTab := activeTab h; barcode := barcode h; loading := v;
       error := error h; cameraActive := cameraActive h;
       cameraError := cameraError h; selectedFile := selectedFile h;
       previewUrl := previewUrl h |}).

Definition setError (v : option string) : M unit :=
  withHooks (fun h =>
    {| activeTab := activeTab h; barcode := barcode h; loading := loading h;
       error := v; cameraActive := cameraActive h;
       cameraError := cameraError h; selectedFile := selectedFile h;
       previewUrl := previewUrl h |}).

Definition setCameraActive (v : bool) : M unit :=
  withHooks (fun h =>
    {| activeTab := activeTab h; barcode := barcode h; loading := loading h;
       error := error h; cameraActive := v;
       cameraError := cameraError h; selectedFile := selectedFile h;
       previewUrl := previewUrl h |}).

Definition setCameraError (v : option string) : M unit :=
  withHooks (fun h =>
    {| activeTab := activeTab h; barcode := barcode h; loading := loading h;
       error := error h; cameraActive := cameraActive h;
       cameraError := v; selectedFile := selectedFile h;
       previewUrl := previewUrl h |}).

Definition setSelectedFile (v : option File) : M unit :=
  withHooks (fun h =>
    {| activeTab := activeTab h; barcode := barcode h; loading := loading h;
       error := error h; cameraActive := cameraActive h;
       cameraError := cameraError h; selectedFile := v;
       previewUrl := previewUrl h |}).

Definition setPreviewUrl (v : option string) : M unit :=
  withHooks (fun h =>
    {| activeTab := activeTab h; barcode := barcode h; loading := loading h;
       error := error h; cameraActive := cameraActive h;
       cameraError := cameraError h; selectedFile := selectedFile h;
       previewUrl := v |}).

(** *** The outside world *)

Definition call (c : Call) : M unit :=
  withDevices (fun d =>
    {| quaggaRunning := quaggaRunning d; liveTracks := liveTracks d;
       calls := calls d ++ [c] |}).

Definition setQuaggaRunning (b : bool) : M unit :=
  withDevices (fun d =>
    {| quaggaRunning := b; liveTracks := liveTracks d; calls := calls d |}).

Definition setLiveTracks (f : list TrackId -> list TrackId) : M unit :=
  withDevices (fun d =>
    {| quaggaRunning := quaggaRunning d; liveTracks := f (liveTracks d);
       calls := calls d |}).

(** [Quagga.start()]: the decoder takes the camera. *)
Definition Quagga_start : M unit :=
  call QuaggaStart ;; setQuaggaRunning true.

(** [Quagga.stop()]: the decoder lets go of the camera. *)
Definition Quagga_stop : M unit :=
  call QuaggaStop ;; setQuaggaRunning false.

(** [track.stop()] *)
Definition track_stop (t : TrackId) : M unit :=
  call (TrackStop t) ;;
  setLiveTracks (filter (fun t' => negb (Nat.eqb t' t))).

(** [tracks.forEach(f)] *)
Fixpoint forEach {A} (f : A -> M unit) (l : list A) : M unit :=
  match l with
  | [] => ret tt
  | x :: r => f x ;; forEach f r
  end.

(** [videoRef.current.srcObject], a [TypeError] when [current] is null. *)
Definition video_srcObject : M (option MediaStream) :=
  fun s => match videoRef (refs s) with
           | None => Thrown "TypeError" s
           | Some v => Ok (srcObject v) s
           end.

(** [videoRef.current.srcObject = v], a [TypeError] when [current] is null. *)
Definition set_video_srcObject (v : option MediaStream) : M unit :=
  fun s => match videoRef (refs s) with
           | None => Thrown "TypeError" s
           | Some _ =>
               withRefs (fun r => {| scannerRef := scannerRef r;
                                     videoRef := Some {| srcObject := v |} |}) s
           end.

(** [!videoRef.current] *)
Definition video_isNull : M bool :=
  gets (fun s => match videoRef (refs s) with None => true | Some _ => false end).

(** *** Handlers of [ScanPage] *)

(** The closure of the current render. *)
Definition currentClosure : M Closure :=
  gets (fun s => {| closure_barcode := barcode (hooks s) |}).

(** [stopCamera], as the function value created in [render]: the
    [cameraActive] it tests is the const of that render, not the cell. *)
Definition stopCamera (render : Hooks) : M unit :=
  if cameraActive render then
    Quagga_stop ;;
    setCameraActive false
  else ret tt.

(** [stopCameraForOCR] *)
Definition stopCameraForOCR : M unit :=
  isNull <- video_isNull ;;
  if isNull then ret tt
  else
    so <- video_srcObject ;;
    match so with
    | None => ret tt
    | Some stream =>
        forEach track_stop (getTracks stream) ;;
        set_video_srcObject None ;;
        setCameraActive false
    end.

(** [handleTabChange], as the function value created in [render]; its
    [stopCamera] is the one of the same render. *)
Definition handleTabChange (render : Hooks) (newValue : ScanType) : M unit :=
  setActiveTab newValue ;;
  setBarcode "" ;;
  setError None ;;
  stopCamera render ;;
  setSelectedFile None ;;
  setPreviewUrl None.

(** [handleBarcodeSearch], up to its [await]: the check of the barcode
    text and the request. [barcode] is the one of the closure. *)
Definition handleBarcodeSearch (c : Closure) : M unit :=
  let barcode := closure_barcode c in
  if isEmpty (trim barcode) then setError (Some "Please enter a barcode")
  else
    setLoading true ;;
    setError None ;;
    call (ApiLookupBarcode (trim barcode)).

(** What [handleBarcodeSearch] reads of the response. *)
Record LookupResponse := {
  success : bool;
  hasData : bool;
  message : option string
}.

(** [response.message || 'Product not found'] *)
Definition messageOr (m : option string) (fallback : string) : string :=
  match m with
  | Some t => if isEmpty t then fallback else t
  | None => fallback
  end.

(** [handleBarcodeSearch] from the [await] on. *)
Definition handleBarcodeSearch_resume (c : Closure) (response : LookupResponse)
  : M unit :=
  let barcode := closure_barcode c in
  (if success response && hasData response then
     call (Navigate ("/result?type=barcode&barcode=" ++ trim barcode))
   else setError (Some (messageOr (message response) "Product not found"))) ;;
  setLoading false.

(** [handleBarcodeDetected], as the function value created in the render
    of closure [c]. *)
Definition handleBarcodeDetected (c : Closure) (result : option QuaggaResult)
  : M unit :=
  match result with
  | None => ret tt
  | Some r =>
      match codeResult r with
      | None => ret tt
      | Some cr =>
          Quagga_stop ;;
          setCameraActive false ;;
          setBarcode (code cr) ;;
          handleBarcodeSearch c
      end
  end.

(** [initBarcodeScanner]; [err] is what [Quagga.init] hands its callback. *)
Definition initBarcodeScanner (c : Closure) (err : bool) : M unit :=
  mounted <- gets (fun s => scannerRef (refs s)) ;;
  if negb mounted then ret tt
  else
    call QuaggaInit ;;
    if err then
      setCameraError
        (Some "Could not initialize camera. Please check permissions.")
    else
      Quagga_start ;;
      setCameraActive true ;;
      setCameraError None ;;
      call (QuaggaOnDetected c).

(** [startCamera] *)
Definition startCamera (err : bool) : M unit :=
  c <- currentClosure ;;
  setCameraError None ;;
  initBarcodeScanner c err.

(** [startCameraForOCR]; [granted] is the stream [getUserMedia] resolves
    to, [None] when it rejects. *)
Definition startCameraForOCR (granted : option MediaStream) : M unit :=
  isNull <- video_isNull ;;
  if isNull then ret tt
  else
    tryCatch
      (call GetUserMedia ;;
       match granted with
       | None => throw "NotAllowedError"
       | Some stream =>
           setLiveTracks (fun l => l ++ getTracks stream) ;;
           set_video_srcObject (Some stream) ;;
           setCameraActive true ;;
           setCameraError None
       end)
      (fun _ =>
         setCameraError
           (Some "Could not access camera. Please check permissions.")).

(** [handleFileChange]; [url] is what [URL.createObjectURL] returns. *)
Definition handleFileChange (files : list File) (url : string) : M unit :=
  match files with
  | [] => ret tt
  | file :: _ =>
      if negb (String.prefix "image/" (file_type file)) then
        setError (Some "Please select an image file")
      else
        setSelectedFile (Some file) ;;
        call (CreateObjectURL file) ;;
        setPreviewUrl (Some url) ;;
        setError None
  end.

(** The clean-up the effect returns, as the function value created in
    [render]: [stopCamera] and [previewUrl] are the ones of that render,
    [stopCameraForOCR] reads the ref. *)
Definition cleanup (render : Hooks) : M unit :=
  stopCamera render ;;
  stopCameraForOCR ;;
  match previewUrl render with
  | Some u => if isEmpty u then ret tt else call (RevokeObjectURL u)
  | None => ret tt
  end.

(** The refs after a render: the scanner [div] is mounted in the Camera
    panel only, and the [video] element in the Upload panel only. *)
Definition commitRefs : M unit :=
  tab <- gets (fun s => activeTab (hooks s)) ;;
  withRefs (fun r =>
    {| scannerRef := match tab with CAMERA => true | _ => false end;
       videoRef := match tab with
                   | IMAGE => match videoRef r with
                              | Some v => Some v
                              | None => Some {| srcObject := None |}
                              end
                   | _ => None
                   end |}).

(** The comparison of a dep of type [string | null] with its value in the
    render that ran the effect last. *)
Definition sameDep (a b : option string) : bool :=
  match a, b with
  | None, None => true
  | Some x, Some y => String.eqb x y
  | _, _ => false
  end.

(** The commit of a render: the refs are attached and detached; then, when
    [previewUrl] is not the one of the render that ran the effect last, the
    clean-up that render registered is run and the effect of the render
    being committed registers its own. The consts of the render being
    committed are the cells as they are before that clean-up runs. *)
Definition commit : M unit :=
  commitRefs ;;
  render <- gets hooks ;;
  registered <- gets effect ;;
  if sameDep (previewUrl registered) (previewUrl render) then ret tt
  else
    cleanup registered ;;
    setEffect render.

(** The first render in tab [tab]. *)
Definition initialHooks (tab : ScanType) : Hooks :=
  {| activeTab := tab; barcode := ""; loading := false;
     error := None; cameraActive := false; cameraError := None;
     selectedFile := None; previewUrl := None |}.

(** The component after its first render in tab [tab] and the first run of
    the effect. *)
Definition initialState (tab : ScanType) : State :=
  {| hooks := initialHooks tab;
     refs := {| scannerRef := match tab with CAMERA => true | _ => false end;
                videoRef := match tab with
                            | IMAGE => Some {| srcObject := None |}
                            | _ => None
                            end |};
     effect := initialHooks tab;
     devices := {| quaggaRunning := false; liveTracks := []; calls := [] |} |}.

(** A camera is held when the decoder runs or a media track is live. *)
Definition cameraHeld (s : State) : bool :=
  quaggaRunning (devices s) || negb (Nat.eqb (List.length (liveTracks (devices s))) 0).

(** The number of calls in the log that satisfy [p]. *)
Definition countCalls (p : Call -> bool) (s : State) : nat :=
  List.length (filter p (calls (devices s))).

Definition isQuaggaStop (c : Call) : bool :=
  match c with QuaggaStop => true | _ => false end.

Definition isLookup (c : Call) : bool :=
  match c with ApiLookupBarcode _ => true | _ => false end.

(** A sequence of decoder callbacks to the handler of closure [c]. *)
Fixpoint detections (c : Closure) (results : list (option QuaggaResult))
  : M unit :=
  match results with
  | [] => ret tt
  | r :: rest => handleBarcodeDetected c r ;; detections c rest
  end.

(** *** The view as a transition system *)

(** What can happen to the mounted view: the user's actions and the
    completions of what they started. *)
Inductive Event :=
| TabChange (newValue : ScanType)
| StartCamera (err : bool)
| StopCamera
| BarcodeDetected (c : Closure) (result : option QuaggaResult)
| SearchResumed (c : Closure) (response : LookupResponse)
| StartCameraForOCR (granted : option MediaStream)
| StopCameraForOCR
| FileChange (files : list File) (url : string).

(** The function an event runs. The user's actions run the function values
    of the latest render, whose consts are the cells as they are; a decoder
    callback or a resumed search runs the function value of the render that
    created it. *)
Definition dispatch (e : Event) : M unit :=
  render <- gets hooks ;;
  match e with
  | TabChange newValue => handleTabChange render newValue
  | StartCamera err => startCamera err
  | StopCamera => stopCamera render
  | BarcodeDetected c result => handleBarcodeDetected c result
  | SearchResumed c response => handleBarcodeSearch_resume c response
  | StartCameraForOCR granted => startCameraForOCR granted
  | StopCameraForOCR => stopCameraForOCR
  | FileChange files url => handleFileChange files url
  end.

(** An event and the commit of the render it causes. *)
Definition handle (e : Event) : M unit :=
  fun s => commit (stateOf (dispatch e s)).

Inductive reachable : State -> Prop :=
| reachable_initial (tab : ScanType) : reachable (initialState tab)
| reachable_handle (s : State) (e : Event) :
    reachable s -> reachable (stateOf (handle e s)).

(** The state after a sequence of events. *)
Fixpoint run (events : list Event) (s : State) : State :=
  match events with
  | [] => s
  | e :: rest => run rest (stateOf (handle e s))
  end.

End ScanPage.

(* ===================================================================== *)
(** ** services/api.ts: [ApiService] *)
(* ===================================================================== *)

Module Api.
Import JsString.

(** The JavaScript values that travel through the service: response
    bodies, request bodies and the fields of an error. Numbers are the
    integers, which is all the source writes. *)
Inductive JSValue :=
| JUndefined
| JNull
| JBool (b : bool)
| JNum (n : Z)
| JStr (s : string)
| JArr (items : list JSValue)
| JObj (fields : list (string * JSValue)).

(** [ToBoolean] *)
Definition truthy (v : JSValue) : bool :=
  match v with
  | JUndefined | JNull => false
  | JBool b => b
  | JNum n => negb (Z.eqb n 0)
  | JStr s => negb (isEmpty s)
  | JArr _ | JObj _ => true
  end.

(** [a || b] *)
Definition jsOr (a b : JSValue) : JSValue := if truthy a then a else b.

Fixpoint lookup (k : string) (fields : list (string * JSValue)) : JSValue :=
  match fields with
  | [] => JUndefined
  | (k', v) :: rest => if String.eqb k k' then v else lookup k rest
  end.

(** What is thrown and caught here is an object: an [AxiosError] with its
    optional [response], or a [TypeError]. *)
Record ErrorObject := { errorFields : list (string * JSValue) }.

Definition TypeError : ErrorObject :=
  {| errorFields := [("name", JStr "TypeError")] |}.

Inductive Completion (A : Type) :=
| Return (a : A)
| Throw (e : ErrorObject).
Arguments Return {A} a.
Arguments Throw {A} e.

Definition bind {A B} (m : Completion A) (k : A -> Completion B)
  : Completion B :=
  match m with
  | Return a => k a
  | Throw e => Throw e
  end.

(** [try { body } catch (error) { handler }] *)
Definition tryCatch {A} (body : Completion A)
           (handler : ErrorObject -> Completion A) : Completion A :=
  match body with
  | Return a => Return a
  | Throw e => handler e
  end.

Declare Scope api_scope.
Notation "x <- m ;; k" := (bind m (fun x => k))
  (at level 61, m at next level, right associativity) : api_scope.
Open Scope api_scope.

(** [v?.k]: undefined on null and undefined. The keys read here are own
    properties of objects only. *)
Definition optGet (v : JSValue) (k : string) : JSValue :=
  match v with
  | JObj fields => lookup k fields
  | _ => JUndefined
  end.

(** [v.k]: a [TypeError] on null and undefined. *)
Definition get (v : JSValue) (k : string) : Completion JSValue :=
  match v with
  | JUndefined | JNull => Throw TypeError
  | _ => Return (optGet v k)
  end.

(** [error.response?.data?.error] *)
Definition responseError (error : ErrorObject) : JSValue :=
  optGet (optGet (lookup "response" (errorFields error)) "data") "error".

(** What axios resolves to. *)
Record AxiosResponse := {
  status : Z;
  response_data : JSValue
}.

(** [interface ApiResponse<T>], with the values the fields hold at run
    time. *)
Record ApiResponse := {
  data : JSValue;
  success : JSValue;
  message : JSValue
}.

Definition emptyOCRResult : JSValue :=
  JObj [("ingredients", JArr []); ("processing_time", JNum 0);
        ("image_path", JStr "")].

Section Service.

(** [await API.post(url, body)] and [await API.get(url)]. *)
Variable API_post : string -> JSValue -> Completion AxiosResponse.
Variable API_get : string -> Completion AxiosResponse.

Definition lookupBarcode (barcode : string) : Completion ApiResponse :=
  tryCatch
    (response <- API_post "/search" (JObj [("barcode", JStr barcode)]) ;;
     s <- get (response_data response) "success" ;;
     e <- get (response_data response) "error" ;;
     Return {| data := response_data response;
               success := jsOr s (JBool false);
               message := e |})
    (fun error =>
       Return {| data := JObj [];
                 success := JBool false;
                 message := jsOr (responseError error)
                                 (JStr "Failed to lookup barcode") |}).

Definition processImage (file : JSValue) : Completion ApiResponse :=
  tryCatch
    (let formData := JObj [("file", file)] in
     response <- API_post "/ocr" formData ;;
     s <- get (response_data response) "success" ;;
     e <- get (response_data response) "error" ;;
     Return {| data := response_data response;
               success := jsOr s (JBool false);
               message := e |})
    (fun error =>
       Return {| data := emptyOCRResult;
                 success := JBool false;
                 message := jsOr (responseError error)
                                 (JStr "Failed to process image") |}).

Definition processCameraImage (blob : JSValue) : Completion ApiResponse :=
  tryCatch
    (let formData := JObj [("file", blob)] in
     response <- API_post "/ocr" formData ;;
     s <- get (response_data response) "success" ;;
     e <- get (response_data response) "error" ;;
     Return {| data := response_data response;
               success := jsOr s (JBool false);
               message := e |})
    (fun error =>
       Return {| data := emptyOCRResult;
                 success := JBool false;
                 message := jsOr (responseError error)
                                 (JStr "Failed to process camera image") |}).

Definition addManualProduct (product : JSValue) : Completion ApiResponse :=
  tryCatch
    (response <- API_post "/product/manual" product ;;
     p <- get (response_data response) "product" ;;
     s <- get (response_data response) "success" ;;
     m <- get (response_data response) "message" ;;
     e <- get (response_data response) "error" ;;
     Return {| data := p;
               success := jsOr s (JBool false);
               message := jsOr m e |})
    (fun error =>
       Return {| data := JObj [];
                 success := JBool false;
                 message := jsOr (responseError error)
                                 (JStr "Failed to add product") |}).

Definition healthCheck : Completion bool :=
  tryCatch
    (response <- API_get "/health" ;;
     Return (Z.eqb (status response) 200))
    (fun _ => Return false).

Definition analyzeIngredients (ingredients : list string)
  : Completion ApiResponse :=
  tryCatch
    (response <- API_post "/analyze-ingredients"
                   (JObj [("ingredients", JArr (map JStr ingredients))]) ;;
     s <- get (response_data response) "success" ;;
     e <- get (response_data response) "error" ;;
     Return {| data := response_data response;
               success := jsOr s (JBool false);
               message := e |})
    (fun error =>
       Return {| data :=
                   JObj [("success", JBool false);
                         ("ingredients", JArr []);
                         ("processing_time", JNum 0);
                         ("error", jsOr (responseError error)
                                     (JStr "Failed to analyze ingredients"))];
                 success := JBool false;
                 message := jsOr (responseError error)
                                 (JStr "Failed to analyze ingredients") |}).

(** The six public operations with their arguments, and what a caller
    gets back from any of them. *)
Inductive Operation :=
| LookupBarcode (barcode : string)
| ProcessImage (file : JSValue)
| ProcessCameraImage (blob : JSValue)
| AddManualProduct (product : JSValue)
| HealthCheck
| AnalyzeIngredients (ingredients : list string).

Inductive Answer :=
| Response (r : ApiResponse)
| Boolean (b : bool).

Definition perform (op : Operation) : Completion Answer :=
  match op with
  | LookupBarcode barcode => r <- lookupBarcode barcode ;; Return (Response r)
  | ProcessImage file => r <- processImage file ;; Return (Response r)
  | ProcessCameraImage blob =>
      r <- processCameraImage blob ;; Return (Response r)
  | AddManualProduct product =>
      r <- addManualProduct product ;; Return (Response r)
  | HealthCheck => b <- healthCheck ;; Return (Boolean b)
  | AnalyzeIngredients ingredients =>
      r <- analyzeIngredients ingredients ;; Return (Response r)
  end.

End Service.

(** The text an operation falls back to in its [catch] branch. *)
Definition fallbackMessage (op : Operation) : string :=
  match op with
  | LookupBarcode _ => "Failed to lookup barcode"
  | ProcessImage _ => "Failed to process image"
  | ProcessCameraImage _ => "Failed to process camera image"
  | AddManualProduct _ => "Failed to add product"
  | HealthCheck => ""
  | AnalyzeIngredients _ => "Failed to analyze ingredients"
  end.

(** The [data] of the [catch] branch of an operation, for the message
    [msg] it reports. *)
Definition defaultData (op : Operation) (msg : JSValue) : JSValue :=
  match op with
  | LookupBarcode _ | AddManualProduct _ => JObj []
  | ProcessImage _ | ProcessCameraImage _ => emptyOCRResult
  | HealthCheck => JUndefined
  | AnalyzeIngredients _ =>
      JObj [("success", JBool false); ("ingredients", JArr []);
            ("processing_time", JNum 0); ("error", msg)]
  end.

End Api.

(* ===================================================================== *)
(** ** The properties of the specification, and sample data *)
(* ===================================================================== *)

Module Spec.
Import JsString ResultPage.

(** The records that the rows of one pass are bound to, in row order. *)
Definition boundRecords (rows : list Row) : list IngredientAnalysisResult :=
  flat_map (fun row => match analysis row with Some a => [a] | None => [] end)
           rows.

(** "No [AnalysisRecord] appears in more than one [MatchResult.record]
    across a single reconciliation call." *)
Definition AtMostOneConsumer (rows : list Row) : Prop :=
  forall i j ri rj a,
    i <> j ->
    nth_error rows i = Some ri -> nth_error rows j = Some rj ->
    analysis ri = Some a -> analysis rj = Some a -> False.

(** "If an ingredient's normalized name exactly equals some record's
    normalized name, that pair is matched." *)
Definition ExactMatchWins (text : string) (rs : list IngredientAnalysisResult)
  : Prop :=
  forall a,
    In a rs ->
    ocrNormalize (name a) = ocrNormalize text ->
    exists b, ocrAnalysis (Some rs) text = Some b
              /\ ocrNormalize (name b) = ocrNormalize text.

(** A record qualifies by substring containment for an ingredient text. *)
Definition qualifiesPartial (text : string) (a : IngredientAnalysisResult)
  : bool :=
  negb (isEmpty (name a))
  && negb (isEmpty (ocrNormalize (name a)))
  && negb (isEmpty (ocrNormalize text))
  && ocrPartial (ocrNormalize (name a)) (ocrNormalize text).

(** "If multiple candidates qualify, prefer the longest matching record
    name": with no exact match in the pool, no qualifying record has a
    longer name than the bound one. *)
Definition LongestPartialWins (text : string)
           (rs : list IngredientAnalysisResult) : Prop :=
  (forall a, In a rs ->
             ocrExact (ocrNormalize (name a)) (ocrNormalize text) = false) ->
  forall a,
    In a rs -> qualifiesPartial text a = true ->
    exists b, ocrAnalysis (Some rs) text = Some b
              /\ String.length (name a) <= String.length (name b).

(** "Normalize both sides: lowercase, trim, strip surrounding punctuation":
    the two names compare equal at the exact tier of both paths. *)
Definition ExactInEveryPath (a b : string) : Prop :=
  ocrExact (ocrNormalize a) (ocrNormalize b) = true
  /\ productExact a b = true.

(** A string of white space only. *)
Fixpoint allWhite (s : string) : bool :=
  match s with
  | EmptyString => true
  | String c r => isWhiteSpace c && allWhite r
  end.

(** "Counts per [safetyLevel] (unmatched ingredients are excluded), plus the
    list of matched records that have non-empty [concerns] or [benefits],
    preserving original ingredient order": the summary as a function of the
    match results of the rows. *)
Definition SummaryOverMatches (ingredients : list IngredientType)
           (rs : list IngredientAnalysisResult) : Prop :=
  let matched := boundRecords (productRows ingredients (Some rs)) in
  (forall level, levelCount level rs = levelCount level matched)
  /\ detailedAnalysis rs = detailedAnalysis matched.

(** Sample analysis records. *)
Definition record (n : string) (level : SafetyLevel) (cs : list string)
  : IngredientAnalysisResult :=
  {| name := n; id := 0%Z; safety_level := level; health_score := None;
     concerns := cs; benefits := [] |}.

Definition sugar : IngredientAnalysisResult :=
  record "Sugar" caution ["High glycemic index"].
Definition oil : IngredientAnalysisResult := record "Oil" safe [].
Definition palmOil : IngredientAnalysisResult :=
  record "Palm Oil" avoid ["Saturated fat"].

End Spec.

Module ScanSpec.
Import ScanPage.

(** "Tab/mode switching is a hard reset": after the handler of the latest
    render no camera is held and the transient input is cleared. *)
Definition HardReset (s : State) (newValue : ScanType) : Prop :=
  let s' := stateOf (handleTabChange (hooks s) newValue s) in
  cameraHeld s' = false
  /\ selectedFile (hooks s') = None
  /\ previewUrl (hooks s') = None
  /\ barcode (hooks s') = "".

(** "At-most-one decode is acted upon per session": of the callbacks
    [results] delivered to the handler of closure [c], at most one leads to
    a request, and the camera is released once. *)
Definition AtMostOneDecode (c : Closure) (results : list (option QuaggaResult))
           (s : State) : Prop :=
  let s' := stateOf (detections c results s) in
  countCalls isLookup s' <= countCalls isLookup s + 1
  /\ countCalls isQuaggaStop s' = countCalls isQuaggaStop s + 1.

(** The callback argument for a decoded [code]. *)
Definition decoded (code : string) : option QuaggaResult :=
  Some {| codeResult := Some {| ScanPage.code := code |} |}.

(** An OCR stream of one video track. *)
Definition oneTrack : MediaStream := {| getTracks := [1] |}.

(** The Upload tab with the OCR camera started and granted. *)
Definition ocrCameraLive : State :=
  stateOf (startCameraForOCR (Some oneTrack) (initialState IMAGE)).

(** The Camera tab after a first scanning session decoded [code], and the
    scanner was started again. *)
Definition secondSession (code : string) : State :=
  stateOf ((startCamera false ;;
            handleBarcodeDetected {| closure_barcode := "" |} (decoded code) ;;
            startCamera false)%scan (initialState CAMERA)).

(** No camera handle is held: the decoder does not run and the video
    element, if there is one, has no stream. *)
Definition noHandle (s : State) : Prop :=
  quaggaRunning (devices s) = false
  /\ (videoRef (refs s) = None
      \/ videoRef (refs s) = Some {| srcObject := None |}).

(** "Releasing ... when no handle is held ... leaves the state unchanged
    and never raises an error": [release] returns and changes nothing at
    [s], the log of calls included. *)
Definition NoOp (release : M unit) (s : State) : Prop :=
  release s = Ok tt s.

(** The handle of the OCR release: a stream on the video element. *)
Definition streamAttached (s : State) : bool :=
  match videoRef (refs s) with
  | Some {| srcObject := Some _ |} => true
  | _ => false
  end.

(** A selected image and the URL made for its preview. *)
Definition label : File :=
  {| file_name := "label.jpg"; file_type := "image/jpeg" |}.

Definition labelUrl : string := "blob:label".

(** A second OCR stream. *)
Definition otherTrack : MediaStream := {| getTracks := [2] |}.

(** The Upload tab after the OCR camera was started and an image was then
    selected. *)
Definition fileSelected : State :=
  run [StartCameraForOCR (Some oneTrack); FileChange [label] labelUrl]
      (initialState IMAGE).

(** The same, with the OCR camera started once more. *)
Definition ocrRestarted : State :=
  run [StartCameraForOCR (Some oneTrack); FileChange [label] labelUrl;
       StartCameraForOCR (Some otherTrack)]
      (initialState IMAGE).

(** A callback that carries a code result. *)
Definition carriesCode (result : option QuaggaResult) : bool :=
  match result with
  | Some {| codeResult := Some _ |} => true
  | _ => false
  end.

End ScanSpec.

Module ApiSpec.
Import Api.

(** "Returns a well-typed response with success = false, a non-empty
    message, and a default data payload": what the caller of [op] gets when
    every request throws [e]. *)
Definition FailsSoft (op : Operation) (e : ErrorObject) : Prop :=
  exists r,
    perform (fun _ _ => Throw e) (fun _ => Throw e) op = Return (Response r)
    /\ success r = JBool false
    /\ truthy (message r) = true
    /\ data r = defaultData op (message r).

(** A network error: an [AxiosError] without [response]. *)
Definition networkError : ErrorObject :=
  {| errorFields := [("message", JStr "Network Error")] |}.

(** An HTTP 500 whose body carries an [error] text. *)
Definition serverError : ErrorObject :=
  {| errorFields :=
       [("response",
         JObj [("status", JNum 500);
               ("data", JObj [("error", JStr "Database unavailable")])])] |}.

End ApiSpec.

(* ===================================================================== *)
(** ** Result view: rows *)
(* ===================================================================== *)

Section Rows.
Import JsString ResultPage Spec.

Lemma mapiFrom_length {A B : Type} (f : A -> nat -> B) (l : list A) :
  forall i, List.length (mapiFrom f i l) = List.length l.
Proof.
  induction l as [|x r IH]; intros i; simpl; [reflexivity|].
  now rewrite IH.
Qed.

Lemma mapiFrom_nth_error {A B : Type} (f : A -> nat -> B) (l : list A) :
  forall i k,
    nth_error (mapiFrom f i l) k
    = option_map (fun x => f x (i + k)) (nth_error l k).
Proof.
  induction l as [|x r IH]; intros i k.
  - destruct k; reflexivity.
  - destruct k as [|k]; simpl.
    + now rewrite Nat.add_0_r.
    + rewrite IH. now replace (S i + k) with (i + S k) by lia.
Qed.

Lemma mapiFrom_map {A B C : Type} (f : A -> nat -> B) (g : B -> C)
      (h : A -> C) (l : list A) :
  (forall x i, g (f x i) = h x) ->
  forall i, map g (mapiFrom f i l) = map h l.
Proof.
  intros Hgf. induction l as [|x r IH]; intros i; simpl; [reflexivity|].
  now rewrite Hgf, IH.
Qed.

Lemma mapiFrom_keys {A B : Type} (f : A -> nat -> B) (g : B -> nat)
      (l : list A) :
  (forall x i, g (f x i) = i) ->
  forall i, map g (mapiFrom f i l) = seq i (List.length l).
Proof.
  intros Hgf. induction l as [|x r IH]; intros i; simpl; [reflexivity|].
  now rewrite Hgf, IH.
Qed.

(** [find] returns the first element, in list order, that passes. *)
Lemma find_first {A : Type} (p : A -> bool) (before after : list A) (x : A) :
  (forall y, In y before -> p y = false) ->
  p x = true ->
  find p (before ++ x :: after) = Some x.
Proof.
  induction before as [|y r IH]; intros Hb Hx; simpl.
  - now rewrite Hx.
  - rewrite (Hb y (or_introl eq_refl)). apply IH; [|exact Hx].
    intros z Hz. apply Hb. now right.
Qed.

(** [find] finds something as soon as some element passes. *)
Lemma find_exists {A : Type} (p : A -> bool) (l : list A) (x : A) :
  In x l -> p x = true ->
  exists y, find p l = Some y /\ In y l /\ p y = true.
Proof.
  intros Hin Hx. destruct (find p l) as [y|] eqn:Hf.
  - exists y. destruct (find_some _ _ Hf) as [H1 H2]. now repeat split.
  - rewrite (find_none _ _ Hf x Hin) in Hx. discriminate.
Qed.

(** What [find] returns splits the list at the first element that passes. *)
Lemma find_split {A : Type} (p : A -> bool) (l : list A) :
  match find p l with
  | Some a =>
      exists before after,
        l = before ++ a :: after
        /\ p a = true
        /\ forall x, In x before -> p x = false
  | None => forall x, In x l -> p x = false
  end.
Proof.
  induction l as [|y r IH]; simpl.
  - intros x [].
  - destruct (p y) eqn:Hy.
    + exists [], r. repeat split; [exact Hy|]. intros x [].
    + destruct (find p r) as [a|].
      * destruct IH as (before & after & -> & Ha & Hb).
        exists (y :: before), after. repeat split; [exact Ha|].
        intros x [<-|Hx]; [exact Hy|now apply Hb].
      * intros x [<-|Hx]; [exact Hy|now apply IH].
Qed.

(** C7: the OCR list and the product list have one row per ingredient, in
    the order of the ingredients: the k-th row shows the text of the k-th
    ingredient with the record found for that text (or none), whatever the
    analysis results are, null and empty included. *)
Theorem rows_one_per_ingredient :
  forall (ingredients : list IngredientType)
         (analysisResults : option (list IngredientAnalysisResult)),
    List.length (ocrRows ingredients analysisResults) = List.length ingredients
    /\ map primary (ocrRows ingredients analysisResults)
       = map ingredientText ingredients
    /\ map key (ocrRows ingredients analysisResults)
       = seq 0 (List.length ingredients)
    /\ (forall k,
           nth_error (ocrRows ingredients analysisResults) k
           = option_map (fun i => ocrRow analysisResults i k)
                        (nth_error ingredients k))
    /\ List.length (productRows ingredients analysisResults)
       = List.length ingredients
    /\ map primary (productRows ingredients analysisResults)
       = map ingredientText ingredients
    /\ (forall k,
           nth_error (productRows ingredients analysisResults) k
           = option_map (fun i => productRow analysisResults i k)
                        (nth_error ingredients k)).
Proof.
  intros ingredients analysisResults. unfold ocrRows, productRows, mapi.
  repeat split.
  - apply mapiFrom_length.
  - now apply mapiFrom_map.
  - now apply mapiFrom_keys.
  - intros k. now rewrite mapiFrom_nth_error.
  - apply mapiFrom_length.
  - now apply mapiFrom_map.
  - intros k. now rewrite mapiFrom_nth_error.
Qed.

(** Two ingredients, one record: both rows are bound to it. *)
Lemma shared_record_rows :
  map analysis (ocrRows [IngString "Sugar"; IngString "sugar"] (Some [sugar]))
  = [Some sugar; Some sugar]
  /\ map analysis
         (productRows [IngString "Sugar"; IngString "sugar"] (Some [sugar]))
     = [Some sugar; Some sugar].
Proof. split; reflexivity. Qed.

(** C1, refuted as stated: with the ingredients "Sugar" and "sugar" and the
    single record Sugar, both rows are bound to that record, in the OCR
    list and in the product list. *)
Lemma record_consumed_twice :
  ~ AtMostOneConsumer
      (ocrRows [IngString "Sugar"; IngString "sugar"] (Some [sugar]))
  /\ ~ AtMostOneConsumer
         (productRows [IngString "Sugar"; IngString "sugar"] (Some [sugar])).
Proof.
  split; intros H;
    apply (H 0 1 _ _ sugar ltac:(discriminate) eq_refl eq_refl);
    reflexivity.
Qed.

(** C1, as the code has it: the k-th row is bound to what [find] returns for
    the text of the k-th ingredient over the whole list of analysis results:
    the first record, in their order, that passes the predicate, or none
    when no record passes. The binding depends on nothing but that text and
    the analysis results, so a record bound to one row stays available to
    every other row. This holds in the OCR list and in the product list. *)
Theorem rows_bound_independently :
  forall (ingredients : list IngredientType)
         (rs : list IngredientAnalysisResult) (k : nat),
    nth_error (map analysis (ocrRows ingredients (Some rs))) k
    = option_map (fun i => find (ocrMatches (ingredientText i)) rs)
                 (nth_error ingredients k)
    /\ nth_error (map analysis (productRows ingredients (Some rs))) k
       = option_map (fun i => find (productMatches (ingredientText i)) rs)
                    (nth_error ingredients k)
    /\ (forall text,
           match find (ocrMatches text) rs with
           | Some a =>
               exists before after,
                 rs = before ++ a :: after
                 /\ ocrMatches text a = true
                 /\ forall x, In x before -> ocrMatches text x = false
           | None => forall x, In x rs -> ocrMatches text x = false
           end)
    /\ (forall text,
           match find (productMatches text) rs with
           | Some a =>
               exists before after,
                 rs = before ++ a :: after
                 /\ productMatches text a = true
                 /\ forall x, In x before -> productMatches text x = false
           | None => forall x, In x rs -> productMatches text x = false
           end).
Proof.
  intros ingredients rs k. unfold ocrRows, productRows, mapi.
  repeat split.
  - rewrite nth_error_map, mapiFrom_nth_error.
    now destruct (nth_error ingredients k).
  - rewrite nth_error_map, mapiFrom_nth_error.
    now destruct (nth_error ingredients k).
  - intros text. apply find_split.
  - intros text. apply find_split.
Qed.

End Rows.

(* ===================================================================== *)
(** ** Result view: the match predicate *)
(* ===================================================================== *)

Section Matching.
Import JsString ResultPage Spec.

Lemma isEmpty_false (s : string) : isEmpty s = false <-> s <> EmptyString.
Proof.
  destruct s; simpl; split; intros H; congruence.
Qed.

Lemma ocrNormalize_name_nonempty (a : IngredientAnalysisResult) :
  ocrNormalize (name a) <> EmptyString -> isEmpty (name a) = false.
Proof.
  intros H. destruct (name a); [|reflexivity]. now contradiction H.
Qed.

(** A record whose normalised name is the normalised text passes, at the
    exact comparison, when that name is not empty. *)
Lemma ocrMatches_exact (text : string) (a : IngredientAnalysisResult) :
  ocrNormalize (name a) = ocrNormalize text ->
  ocrNormalize text <> EmptyString ->
  ocrMatches text a = true.
Proof.
  intros Heq Hne. unfold ocrMatches.
  rewrite ocrNormalize_name_nonempty by now rewrite Heq.
  rewrite Heq. apply isEmpty_false in Hne. rewrite Hne. simpl.
  unfold ocrExact. now rewrite String.eqb_refl.
Qed.

(** A record that qualifies by substring containment passes. *)
Lemma ocrMatches_partial (text : string) (a : IngredientAnalysisResult) :
  qualifiesPartial text a = true -> ocrMatches text a = true.
Proof.
  unfold qualifiesPartial, ocrMatches. intros H.
  apply andb_prop in H as [H Hp]. apply andb_prop in H as [H Ht].
  apply andb_prop in H as [Hn Ha].
  apply negb_true_iff in Hn, Ha, Ht. rewrite Hn, Ha, Ht, Hp. simpl.
  now destruct (ocrExact _ _).
Qed.

(** C2, refuted as stated: for the ingredient "Palm Oil" and the records
    Oil, Palm Oil in that order, the normalised name of the second record
    equals the normalised ingredient, and the ingredient is bound to the
    first record, which passes by substring containment. *)
Lemma exact_match_passed_over :
  ~ ExactMatchWins "Palm Oil" [oil; palmOil].
Proof.
  intros H.
  destruct (H palmOil (or_intror (or_introl eq_refl)) eq_refl) as (b & Hb & Hn).
  vm_compute in Hb. injection Hb as <-. vm_compute in Hn. discriminate.
Qed.

(** C2, as the code has it: an ingredient whose normalised name is not empty
    and equals the normalised name of a record of the pool is bound to a
    record, the first one in pool order that passes the predicate; it is
    the exactly-equal record when no record before it in the pool passes. *)
Theorem exact_match_is_bound :
  forall (text : string) (rs : list IngredientAnalysisResult)
         (a : IngredientAnalysisResult),
    In a rs ->
    ocrNormalize (name a) = ocrNormalize text ->
    ocrNormalize text <> EmptyString ->
    (exists b, ocrAnalysis (Some rs) text = Some b
               /\ In b rs /\ ocrMatches text b = true)
    /\ (forall before after,
           rs = before ++ a :: after ->
           (forall x, In x before -> ocrMatches text x = false) ->
           ocrAnalysis (Some rs) text = Some a).
Proof.
  intros text rs a Hin Heq Hne.
  pose proof (ocrMatches_exact text a Heq Hne) as Ha. split.
  - exact (find_exists (ocrMatches text) rs a Hin Ha).
  - intros before after -> Hb. simpl. now apply find_first.
Qed.

Lemma exact_match_is_bound_witness :
  exists b, ocrAnalysis (Some [oil; palmOil]) "Palm Oil" = Some b
            /\ In b [oil; palmOil] /\ ocrMatches "Palm Oil" b = true.
Proof.
  exact (proj1 (exact_match_is_bound "Palm Oil" [oil; palmOil] palmOil
                  (or_intror (or_introl eq_refl)) eq_refl
                  ltac:(discriminate))).
Defined.

(** C5, refuted as stated: for the ingredient "refined palm oil" and the
    records Oil, Palm Oil in that order, no record matches exactly, both
    qualify by substring containment, and the ingredient is bound to Oil,
    the shorter name. *)
Lemma shorter_name_preferred :
  ~ LongestPartialWins "refined palm oil" [oil; palmOil].
Proof.
  intros H.
  assert (Hex : forall a, In a [oil; palmOil] ->
                  ocrExact (ocrNormalize (name a))
                           (ocrNormalize "refined palm oil") = false).
  { intros a [<-|[<-|[]]]; reflexivity. }
  destruct (H Hex palmOil (or_intror (or_introl eq_refl)) eq_refl)
    as (b & Hb & Hlen).
  vm_compute in Hb. injection Hb as <-. vm_compute in Hlen. lia.
Qed.

(** C5, as the code has it: a record that qualifies by substring
    containment is bound as soon as no record before it in the pool passes
    the predicate, whatever records follow it and however long their names
    are. *)
Theorem first_partial_match_is_bound :
  forall (text : string) (before after : list IngredientAnalysisResult)
         (a : IngredientAnalysisResult),
    (forall x, In x before -> ocrMatches text x = false) ->
    qualifiesPartial text a = true ->
    ocrAnalysis (Some (before ++ a :: after)) text = Some a.
Proof.
  intros text before after a Hb Hq. simpl.
  apply find_first; [exact Hb|]. now apply ocrMatches_partial.
Qed.

Lemma first_partial_match_is_bound_witness :
  ocrAnalysis (Some ([] ++ oil :: [palmOil])) "refined palm oil" = Some oil.
Proof.
  apply (first_partial_match_is_bound "refined palm oil" [] [palmOil] oil).
  - intros x [].
  - reflexivity.
Defined.

End Matching.

(* ===================================================================== *)
(** ** Result view: normalisation of the two names *)
(* ===================================================================== *)

Section Normalization.
Import JsString ResultPage Spec.

Lemma lowerChar_white (c : ascii) :
  isWhiteSpace c = true -> lowerChar c = c.
Proof.
  intros H. unfold lowerChar, isUpper.
  destruct (65 <=? nat_of_ascii c) eqn:E; [|reflexivity].
  apply Nat.leb_le in E. unfold isWhiteSpace in H.
  apply orb_prop in H as [H|H].
  - apply andb_prop in H as [_ H]. apply Nat.leb_le in H. lia.
  - apply Nat.eqb_eq in H. lia.
Qed.

Lemma toLowerCase_app (x y : string) :
  toLowerCase (x ++ y) = (toLowerCase x ++ toLowerCase y)%string.
Proof.
  induction x as [|c x IH]; simpl; [reflexivity|]. now rewrite IH.
Qed.

Lemma toLowerCase_white (w : string) :
  allWhite w = true -> toLowerCase w = w.
Proof.
  induction w as [|c w IH]; simpl; [reflexivity|]. intros H.
  apply andb_prop in H as [Hc Hw]. now rewrite lowerChar_white, IH.
Qed.

Lemma trimStart_white (w x : string) :
  allWhite w = true -> trimStart (w ++ x) = trimStart x.
Proof.
  induction w as [|c w IH]; simpl; [reflexivity|]. intros H.
  apply andb_prop in H as [Hc Hw]. rewrite Hc. now apply IH.
Qed.

Lemma trimEnd_white (w : string) :
  allWhite w = true -> trimEnd w = EmptyString.
Proof.
  induction w as [|c w IH]; simpl; [reflexivity|]. intros H.
  apply andb_prop in H as [Hc Hw]. now rewrite IH, Hc.
Qed.

Lemma trimEnd_app_white (x w : string) :
  allWhite w = true -> trimEnd (x ++ w) = trimEnd x.
Proof.
  intros Hw. induction x as [|c x IH]; simpl.
  - now apply trimEnd_white.
  - now rewrite IH.
Qed.

Lemma trimStart_all_white (w : string) :
  allWhite w = true -> trimStart w = EmptyString.
Proof.
  induction w as [|c w IH]; simpl; [reflexivity|]. intros H.
  apply andb_prop in H as [Hc Hw]. rewrite Hc. now apply IH.
Qed.

Lemma trim_app_white (x w : string) :
  allWhite w = true -> trim (x ++ w) = trim x.
Proof.
  intros Hw. unfold trim. induction x as [|c x IH]; simpl.
  - now rewrite trimStart_all_white.
  - destruct (isWhiteSpace c); [exact IH|].
    exact (trimEnd_app_white (String c x) w Hw).
Qed.

(** Surrounding white space does not survive [trim]. *)
Lemma trim_surrounding (l x r : string) :
  allWhite l = true -> allWhite r = true -> trim (l ++ x ++ r) = trim x.
Proof.
  intros Hl Hr. unfold trim at 1. rewrite trimStart_white by exact Hl.
  exact (trim_app_white x r Hr).
Qed.

Lemma ocrNormalize_surrounding (l x r : string) :
  allWhite l = true -> allWhite r = true ->
  ocrNormalize (l ++ x ++ r) = ocrNormalize x.
Proof.
  intros Hl Hr. unfold ocrNormalize.
  rewrite !toLowerCase_app, (toLowerCase_white l Hl), (toLowerCase_white r Hr).
  now apply trim_surrounding.
Qed.

(** C6, refuted as stated: "(Sodium Benzoate)" and "sodium benzoate" differ
    in case and surrounding punctuation only, and they are not equal at the
    exact comparison of the OCR path (nor of the product path). *)
Lemma punctuation_not_stripped :
  ~ ExactInEveryPath "(Sodium Benzoate)" "sodium benzoate".
Proof.
  intros [H _]. vm_compute in H. discriminate.
Qed.

(** C6, as the code has it: the product path lowercases both names and the
    OCR path lowercases and trims both names before the exact comparison,
    so two names that differ in case only are equal at the exact comparison
    of both paths, and they stay equal in the OCR path when white space is
    put around either of them. *)
Theorem exact_tier_normalization :
  forall (a b l1 r1 l2 r2 : string),
    toLowerCase a = toLowerCase b ->
    allWhite l1 = true -> allWhite r1 = true ->
    allWhite l2 = true -> allWhite r2 = true ->
    productExact a b = true
    /\ ocrExact (ocrNormalize a) (ocrNormalize b) = true
    /\ ocrExact (ocrNormalize (l1 ++ a ++ r1)) (ocrNormalize (l2 ++ b ++ r2))
       = true.
Proof.
  intros a b l1 r1 l2 r2 Hab Hl1 Hr1 Hl2 Hr2.
  unfold productExact, ocrExact.
  rewrite !ocrNormalize_surrounding by assumption.
  unfold ocrNormalize. rewrite Hab, !String.eqb_refl. now repeat split.
Qed.

Lemma exact_tier_normalization_witness :
  productExact "Sodium Benzoate" "sodium benzoate" = true
  /\ ocrExact (ocrNormalize "Sodium Benzoate") (ocrNormalize "sodium benzoate")
     = true
  /\ ocrExact (ocrNormalize ("  " ++ "Sodium Benzoate" ++ " "))
              (ocrNormalize ("" ++ "sodium benzoate" ++ "   "))
     = true.
Proof.
  apply (exact_tier_normalization "Sodium Benzoate" "sodium benzoate"
           "  " " " "" "   "); reflexivity.
Defined.

End Normalization.

(* ===================================================================== *)
(** ** Result view: the analysis summary *)
(* ===================================================================== *)

Section SummaryCard.
Import JsString ResultPage Spec.

Lemma levelCount_app (level : SafetyLevel)
      (r1 r2 : list IngredientAnalysisResult) :
  levelCount level (r1 ++ r2) = levelCount level r1 + levelCount level r2.
Proof.
  unfold levelCount. now rewrite filter_app, length_app.
Qed.

Lemma levelCount_cons (level : SafetyLevel) (a : IngredientAnalysisResult)
      (r : list IngredientAnalysisResult) :
  levelCount level (a :: r)
  = (if SafetyLevel_eqb (safety_level a) level then 1 else 0)
    + levelCount level r.
Proof.
  unfold levelCount. simpl.
  now destruct (SafetyLevel_eqb (safety_level a) level).
Qed.

Lemma levelCount_total (rs : list IngredientAnalysisResult) :
  levelCount safe rs + levelCount caution rs + levelCount avoid rs
  + levelCount unknown rs = List.length rs.
Proof.
  induction rs as [|a r IH]; [reflexivity|].
  rewrite !levelCount_cons. simpl List.length.
  destruct (safety_level a); simpl; lia.
Qed.

Lemma hasDetails_iff (a : IngredientAnalysisResult) :
  hasDetails a = true <-> concerns a <> [] \/ benefits a <> [].
Proof.
  unfold hasDetails. destruct (concerns a), (benefits a); simpl; split;
    intros H; try reflexivity; try discriminate;
    try (left; discriminate); try (right; discriminate).
  destruct H as [H|H]; now contradiction H.
Qed.

(** C8, refuted as stated: with the single ingredient "Water" and the single
    record Sugar (caution, one concern), no row is bound to a record, yet
    the caution badge shows 1 and the detailed list shows Sugar. *)
Lemma unmatched_record_counted :
  ~ SummaryOverMatches [IngString "Water"] [sugar].
Proof.
  intros [H _]. specialize (H caution). vm_compute in H. discriminate.
Qed.

(** C8, as the code has it: the badges count, per safety level, the records
    of the analysis results, each record once, whether or not a row is bound
    to it; the detailed list is the analysis results with non-empty concerns
    or benefits, in the order of the analysis results; a row without a
    record reads "Not analyzed"; and empty analysis results give zero on
    every badge and an empty detailed list. *)
Theorem summary_over_all_records :
  forall (rs r1 r2 : list IngredientAnalysisResult)
         (a : IngredientAnalysisResult) (level : SafetyLevel)
         (results : option (list IngredientAnalysisResult))
         (ingredient : IngredientType) (index : nat),
    analysisSummary (Some rs)
    = Some {| safeBadge := levelCount safe rs;
              cautionBadge := levelCount caution rs;
              avoidBadge := levelCount avoid rs;
              detailed := detailedAnalysis rs |}
    /\ levelCount level (r1 ++ a :: r2)
       = (if SafetyLevel_eqb (safety_level a) level then 1 else 0)
         + levelCount level (r1 ++ r2)
    /\ levelCount safe rs + levelCount caution rs + levelCount avoid rs
       + levelCount unknown rs = List.length rs
    /\ (In a (detailedAnalysis rs) <->
        In a rs /\ (concerns a <> [] \/ benefits a <> []))
    /\ detailedAnalysis (r1 ++ r2) = detailedAnalysis r1 ++ detailedAnalysis r2
    /\ (analysis (productRow results ingredient index) = None <->
        secondary (productRow results ingredient index) = "Not analyzed")
    /\ analysisSummary (Some [])
       = Some {| safeBadge := 0; cautionBadge := 0; avoidBadge := 0;
                 detailed := [] |}.
Proof.
  intros rs r1 r2 a level results ingredient index. repeat split.
  - rewrite !levelCount_app, levelCount_cons. lia.
  - apply levelCount_total.
  - unfold detailedAnalysis in H. now apply filter_In in H.
  - unfold detailedAnalysis in H. apply filter_In in H.
    now apply hasDetails_iff.
  - intros [Hin Hd]. unfold detailedAnalysis. apply filter_In.
    split; [exact Hin|]. now apply hasDetails_iff.
  - unfold detailedAnalysis. apply filter_app.
  - simpl. now intros ->.
  - simpl. destruct (productAnalysis results (ingredientText ingredient));
      [|reflexivity].
    simpl. discriminate.
Qed.

End SummaryCard.

(* ===================================================================== *)
(** ** Scan view: releasing the cameras *)
(* ===================================================================== *)

Section Release.
Import ScanPage ScanSpec.
Local Open Scope scan_scope.

Lemma stopCamera_inactive (render : Hooks) (s : State) :
  cameraActive render = false -> stopCamera render s = Ok tt s.
Proof.
  intros H. unfold stopCamera. now rewrite H.
Qed.

(** What [stopCamera] adds to the log of calls is decided by the flag of
    its render alone. *)
Lemma stopCamera_calls (render : Hooks) (s : State) :
  calls (devices (stateOf (stopCamera render s)))
  = calls (devices s) ++ (if cameraActive render then [QuaggaStop] else []).
Proof.
  unfold stopCamera. destruct (cameraActive render); simpl.
  - reflexivity.
  - now rewrite app_nil_r.
Qed.

Lemma forEach_track_stop (l : list TrackId) :
  forall s,
    exists d,
      forEach track_stop l s
      = Ok tt {| hooks := hooks s; refs := refs s; effect := effect s;
                 devices := d |}
      /\ quaggaRunning d = quaggaRunning (devices s).
Proof.
  induction l as [|t r IH]; intros s.
  - exists (devices s). destruct s. split; reflexivity.
  - simpl. unfold bind at 1. unfold track_stop at 1.
    unfold bind at 1. simpl.
    match goal with |- context [forEach track_stop r ?s1] =>
      destruct (IH s1) as (d & -> & Hq) end.
    exists d. now split.
Qed.

Lemma stopCameraForOCR_no_stream (s : State) :
  videoRef (refs s) = None \/ videoRef (refs s) = Some {| srcObject := None |} ->
  stopCameraForOCR s = Ok tt s.
Proof.
  intros [H|H]; unfold stopCameraForOCR, bind, video_isNull, gets,
    video_srcObject; rewrite H; cbv beta iota; rewrite ?H; reflexivity.
Qed.

(** [stopCameraForOCR] returns, and leaves no stream on the video element. *)
Lemma stopCameraForOCR_returns (s : State) :
  exists s',
    stopCameraForOCR s = Ok tt s'
    /\ (videoRef (refs s') = None
        \/ videoRef (refs s') = Some {| srcObject := None |})
    /\ quaggaRunning (devices s') = quaggaRunning (devices s).
Proof.
  destruct (videoRef (refs s)) as [[[stream|]]|] eqn:E.
  - unfold stopCameraForOCR, bind, video_isNull, gets, video_srcObject.
    rewrite E. cbv beta iota. rewrite E. cbn [srcObject]. cbv beta iota.
    destruct (forEach_track_stop (getTracks stream) s) as (d & -> & Hq).
    unfold set_video_srcObject. simpl. rewrite E. simpl.
    eexists. split; [reflexivity|]. simpl. split; [now right|exact Hq].
  - exists s. rewrite stopCameraForOCR_no_stream by (now right).
    repeat split. now right.
  - exists s. rewrite stopCameraForOCR_no_stream by (now left).
    repeat split. now left.
Qed.

Lemma reachable_run (events : list Event) :
  forall s, reachable s -> reachable (run events s).
Proof.
  induction events as [|e rest IH]; intros s H; simpl.
  - exact H.
  - apply IH. now apply reachable_handle.
Qed.

(** C9, at the failing inputs. The barcode release [stopCamera] is decided
    by the [cameraActive] of the render that created it, whatever handle is
    held: with the flag up it calls [Quagga.stop] and lowers the flag.
    (1) With only the OCR stream live (the decoder never started) the
    [stopCamera] of the latest render calls [Quagga.stop] and lowers the
    flag, and the stream stays live. (2) After the OCR camera was started
    and an image selected, no handle of either kind is held and the cell is
    down, but the registered clean-up is the one of a render that saw the
    flag up: its [stopCamera] is not a no-op, and the next tab change runs
    it. (3) With the OCR camera started once more, one tab change releases
    twice, by the handler and by that clean-up, and [Quagga.stop] is called
    twice. The OCR release [stopCameraForOCR], which tests the handle
    itself, does what the claim says: it returns, a release right after it
    is a no-op, and so is a release with no stream on the video element. *)
Theorem stopCamera_without_handle :
  (forall (render : Hooks) (s : State),
      calls (devices (stateOf (stopCamera render s)))
      = calls (devices s)
        ++ (if cameraActive render then [QuaggaStop] else []))
  /\ reachable ocrCameraLive
  /\ quaggaRunning (devices ocrCameraLive) = false
  /\ ~ In QuaggaStart (calls (devices ocrCameraLive))
  /\ ~ NoOp (stopCamera (hooks ocrCameraLive)) ocrCameraLive
  /\ cameraActive
       (hooks (stateOf (stopCamera (hooks ocrCameraLive) ocrCameraLive)))
     = false
  /\ liveTracks
       (devices (stateOf (stopCamera (hooks ocrCameraLive) ocrCameraLive)))
     = [1]
  /\ reachable fileSelected
  /\ noHandle fileSelected
  /\ cameraHeld fileSelected = false
  /\ cameraActive (hooks fileSelected) = false
  /\ cameraActive (effect fileSelected) = true
  /\ ~ NoOp (stopCamera (effect fileSelected)) fileSelected
  /\ calls (devices (stateOf (handle (TabChange BARCODE) fileSelected)))
     = calls (devices fileSelected) ++ [QuaggaStop; RevokeObjectURL labelUrl]
  /\ reachable ocrRestarted
  /\ ~ In QuaggaStart (calls (devices ocrRestarted))
  /\ calls (devices (stateOf (handle (TabChange BARCODE) ocrRestarted)))
     = calls (devices ocrRestarted)
       ++ [QuaggaStop; QuaggaStop; RevokeObjectURL labelUrl]
  /\ (forall s : State,
        exists s', stopCameraForOCR s = Ok tt s' /\ NoOp stopCameraForOCR s')
  /\ (forall s : State,
        streamAttached s = true \/ NoOp stopCameraForOCR s).
Proof.
  split; [exact stopCamera_calls|].
  split.
  { exact (reachable_handle _ (StartCameraForOCR (Some oneTrack))
             (reachable_initial IMAGE)). }
  split; [reflexivity|].
  split.
  { vm_compute. intros [H|[]]. discriminate H. }
  split.
  { unfold NoOp. vm_compute. intros H. discriminate H. }
  split; [reflexivity|].
  split; [reflexivity|].
  split; [apply reachable_run, reachable_initial|].
  split; [split; [reflexivity|now right]|].
  split; [reflexivity|].
  split; [reflexivity|].
  split; [reflexivity|].
  split.
  { unfold NoOp. vm_compute. intros H. discriminate H. }
  split; [reflexivity|].
  split; [apply reachable_run, reachable_initial|].
  split.
  { vm_compute. intuition discriminate. }
  split; [reflexivity|].
  split.
  - intros s. destruct (stopCameraForOCR_returns s) as (s' & H & Hv & _).
    exists s'. split; [exact H|]. now apply stopCameraForOCR_no_stream.
  - intros s. unfold streamAttached, NoOp.
    destruct (videoRef (refs s)) as [[[stream|]]|] eqn:E.
    + now left.
    + right. apply stopCameraForOCR_no_stream. now right.
    + right. apply stopCameraForOCR_no_stream. now left.
Qed.

(** C3, at the failing input: with the OCR camera live in the Upload tab, a
    change to the Barcode tab leaves the media track live; the commit of the
    render then unmounts the video element, after which even the unmount
    clean-up, of whatever render, does not stop the track. The clean-up run
    on the live state does stop it. *)
Lemma tab_change_keeps_ocr_stream :
  reachable ocrCameraLive
  /\ ~ HardReset ocrCameraLive BARCODE
  /\ liveTracks (devices (stateOf (handle (TabChange BARCODE) ocrCameraLive)))
     = [1]
  /\ videoRef (refs (stateOf (handle (TabChange BARCODE) ocrCameraLive)))
     = None
  /\ (forall render : Hooks,
        liveTracks
          (devices (stateOf ((handle (TabChange BARCODE) ;; cleanup render)
                               ocrCameraLive)))
        = [1])
  /\ (forall render : Hooks,
        liveTracks (devices (stateOf (cleanup render ocrCameraLive))) = []).
Proof.
  split.
  { exact (reachable_handle _ (StartCameraForOCR (Some oneTrack))
             (reachable_initial IMAGE)). }
  split.
  { intros [H _]. vm_compute in H. discriminate. }
  split; [reflexivity|].
  split; [reflexivity|].
  split; intros render; unfold cleanup, stopCamera.
  - destruct (cameraActive render), (previewUrl render) as [u|];
      try destruct (JsString.isEmpty u) eqn:E;
      unfold bind; simpl; rewrite ?E; reflexivity.
  - destruct (cameraActive render), (previewUrl render) as [u|];
      try destruct (JsString.isEmpty u) eqn:E;
      unfold bind; simpl; rewrite ?E; reflexivity.
Qed.

(** What one callback adds to the log of calls. *)
Lemma handleBarcodeDetected_calls (c : Closure) (r : option QuaggaResult)
      (s : State) :
  exists s',
    handleBarcodeDetected c r s = Ok tt s'
    /\ calls (devices s')
       = calls (devices s)
         ++ (if carriesCode r then
               QuaggaStop
               :: (if JsString.isEmpty (JsString.trim (closure_barcode c))
                   then []
                   else [ApiLookupBarcode (JsString.trim (closure_barcode c))])
             else []).
Proof.
  destruct r as [[[cr|]]|]; simpl.
  - unfold bind, handleBarcodeSearch. simpl.
    destruct (JsString.isEmpty (JsString.trim (closure_barcode c))); simpl;
      eexists; (split; [reflexivity|]); simpl; now rewrite <- ?app_assoc.
  - exists s. split; [reflexivity|]. now rewrite app_nil_r.
  - exists s. split; [reflexivity|]. now rewrite app_nil_r.
Qed.

(** C4, as the code has it: the handler keeps no record of an earlier
    detection. Every callback that carries a code result stops the decoder
    and runs the barcode search, so a sequence of callbacks makes as many
    [Quagga.stop] calls as it has callbacks with a code result, and as many
    lookup requests when the barcode text of the handler's closure is not
    blank (none when it is blank). *)
Theorem every_decode_acted_upon :
  forall (c : Closure) (results : list (option QuaggaResult)) (s : State),
    exists s',
      detections c results s = Ok tt s'
      /\ countCalls isQuaggaStop s'
         = countCalls isQuaggaStop s + List.length (filter carriesCode results)
      /\ countCalls isLookup s'
         = countCalls isLookup s
           + (if JsString.isEmpty (JsString.trim (closure_barcode c)) then 0
              else List.length (filter carriesCode results)).
Proof.
  intros c results. induction results as [|r rest IH]; intros s.
  - exists s. repeat split; simpl; [lia|].
    destruct (JsString.isEmpty _); lia.
  - simpl detections. unfold bind.
    destruct (handleBarcodeDetected_calls c r s) as (s1 & -> & Hcalls).
    destruct (IH s1) as (s' & -> & Hstop & Hlook).
    exists s'. split; [reflexivity|].
    rewrite Hstop, Hlook. unfold countCalls. rewrite Hcalls, !filter_app, !length_app.
    simpl filter.
    destruct (carriesCode r); simpl;
      destruct (JsString.isEmpty (JsString.trim (closure_barcode c))); simpl; lia.
Qed.

(** C4, refuted as stated: in a second scanning session the registered
    handler has captured the barcode text "5000112637922"; the same code
    decoded twice makes two lookup requests and two [Quagga.stop] calls. *)
Lemma duplicate_decode_acted_upon :
  In (QuaggaOnDetected {| closure_barcode := "5000112637922" |})
     (calls (devices (secondSession "5000112637922")))
  /\ ~ AtMostOneDecode {| closure_barcode := "5000112637922" |}
         [decoded "5000112637922"; decoded "5000112637922"]
         (secondSession "5000112637922").
Proof.
  split.
  - vm_compute. tauto.
  - intros [H _]. vm_compute in H. lia.
Qed.

End Release.

(* ===================================================================== *)
(** ** [ApiService]: failures of the transport and of the service *)
(* ===================================================================== *)

Section ApiFailures.
Import Api ApiSpec.
Local Open Scope api_scope.

(** [x || 'text'] is truthy when the text is not empty. *)
Lemma jsOr_truthy (x : JSValue) (text : string) :
  text <> EmptyString -> truthy (jsOr x (JStr text)) = true.
Proof.
  intros H. unfold jsOr. destruct (truthy x) eqn:E; [exact E|].
  destruct text; [now contradiction H|reflexivity].
Qed.

(** Reading a property of a response body either returns or throws; both
    are absorbed by the [try]. *)
Lemma tryCatch_returns {A : Type} (body : Completion A)
      (handler : ErrorObject -> Completion A) :
  (forall e, exists a, handler e = Return a) ->
  exists a, tryCatch body handler = Return a.
Proof.
  intros H. destruct body as [a|e]; simpl; [now exists a|apply H].
Qed.

(** No operation lets an exception through, whatever the transport does. *)
Lemma perform_returns
      (post : string -> JSValue -> Completion AxiosResponse)
      (get_ : string -> Completion AxiosResponse) (op : Operation) :
  exists a, perform post get_ op = Return a.
Proof.
  destruct op; simpl; unfold bind at 1;
    match goal with
    | |- context [match ?m with Return _ => _ | Throw _ => _ end] =>
        assert (Hm : exists r, m = Return r)
          by (apply tryCatch_returns; intros e; eexists; reflexivity);
        destruct Hm as (r & ->)
    end; eexists; reflexivity.
Qed.

(** C10, refuted as stated: when the request throws, [healthCheck] returns
    the boolean [false], not a response with a message and a payload. *)
Lemma healthCheck_has_no_message :
  ~ FailsSoft HealthCheck networkError.
Proof.
  intros (r & H & _). vm_compute in H. discriminate.
Qed.

(** C10, as the code has it: no operation lets an exception through,
    whatever the transport and the service do. When every request throws
    [e], [healthCheck] returns [false], and each of the other five
    operations returns a response with [success] false, the default payload
    of its [catch] branch, and a truthy message: the [error] of the body of
    [e]'s response when that is truthy, and the operation's own text
    otherwise. *)
Theorem operations_fail_soft :
  forall (post : string -> JSValue -> Completion AxiosResponse)
         (get_ : string -> Completion AxiosResponse)
         (e : ErrorObject) (op : Operation),
    (forall url body, post url body = Throw e) ->
    (forall url, get_ url = Throw e) ->
    (forall post' get', exists a, perform post' get' op = Return a)
    /\ match op with
       | HealthCheck => perform post get_ op = Return (Boolean false)
       | _ =>
           let msg := jsOr (responseError e) (JStr (fallbackMessage op)) in
           perform post get_ op
           = Return (Response {| data := defaultData op msg;
                                 success := JBool false;
                                 message := msg |})
           /\ truthy msg = true
       end.
Proof.
  intros post get_ e op Hpost Hget. split.
  - intros post' get'. apply perform_returns.
  - destruct op; simpl;
      unfold lookupBarcode, processImage, processCameraImage,
        addManualProduct, healthCheck, analyzeIngredients;
      rewrite ?Hpost, ?Hget; simpl;
      try (split; [reflexivity|apply jsOr_truthy; discriminate]).
    reflexivity.
Qed.

Lemma operations_fail_soft_witness :
  perform (fun _ _ => Throw serverError) (fun _ => Throw serverError)
          (LookupBarcode "5000112637922")
  = Return (Response {| data := JObj [];
                        success := JBool false;
                        message := JStr "Database unavailable" |})
  /\ perform (fun _ _ => Throw networkError) (fun _ => Throw networkError)
             (AnalyzeIngredients ["Sugar"])
     = Return (Response
                 {| data :=
                      JObj [("success", JBool false); ("ingredients", JArr []);
                            ("processing_time", JNum 0);
                            ("error", JStr "Failed to analyze ingredients")];
                    success := JBool false;
                    message := JStr "Failed to analyze ingredients" |}).
Proof.
  split.
  - exact (proj1 (proj2 (operations_fail_soft
                           (fun _ _ => Throw serverError)
                           (fun _ => Throw serverError) serverError
                           (LookupBarcode "5000112637922")
                           (fun _ _ => eq_refl) (fun _ => eq_refl)))).
  - exact (proj1 (proj2 (operations_fail_soft
                           (fun _ _ => Throw networkError)
                           (fun _ => Throw networkError) networkError
                           (AnalyzeIngredients ["Sugar"])
                           (fun _ _ => eq_refl) (fun _ => eq_refl)))).
Defined.

End ApiFailures.
